(** * pytos.secureapp.xml_objects.base_types

    A shallow embedding of the SecureApp XML data-binding base types
    (src/pytos/secureapp/xml_objects/base_types.py) and the properties
    of its polymorphic, registry-driven deserialisation, its equality and
    hash contract and its link objects. *)

From Stdlib Require Import ZArith.
From stdpp Require Import base option gmap strings pretty.

Local Open Scope string_scope.

(** ** Python values and exceptions *)

(** The values the identity fields of an object hold: [get_xml_text_value]
    yields a [str] or [None], [get_xml_int_value] an [int] or [None]. *)
Inductive pyval : Type :=
  | PyNone
  | PyInt (z : Z)
  | PyStr (s : string).

(** Python's [==] on these values: [None] equals only [None], an [int]
    only the same [int], a [str] only the same [str]. *)
Definition py_eq (a b : pyval) : bool :=
  match a, b with
  | PyNone, PyNone => true
  | PyInt x, PyInt y => Z.eqb x y
  | PyStr s, PyStr t => String.eqb s t
  | _, _ => false
  end.

(** Python's [str()]. *)
Definition str (v : pyval) : string :=
  match v with
  | PyNone => "None"
  | PyInt z => pretty z
  | PyStr s => s
  end.

(** The exceptions that travel through this module. [KeyError] carries the
    missing key, [ValueError] its message; [ParseError] is what
    [ET.fromstring] raises on malformed text; any other exception a
    subclass parser raises is an [OtherError]. *)
Inductive exn : Type :=
  | ValueError (msg : string)
  | KeyError (key : string)
  | ParseError (msg : string)
  | OtherError (kind msg : string).

Inductive result (A : Type) : Type :=
  | Return (a : A)
  | Raise (e : exn).
Arguments Return {A} a.
Arguments Raise {A} e.

(** ** xml.etree.ElementTree elements *)

#[warnings="-register-all"]
Inductive Element : Type :=
  mkElement {
    tag : string;
    attrib : gmap string string;
    text : option string;
    children : list Element
  }.

(** A computation that runs against one XML node: the node is a mutable
    Python object handed on by reference, so every method that receives it
    is a state transformer over the node's contents, and may raise. *)
Definition M (A : Type) : Type := Element → result A * Element.

Definition ret {A} (a : A) : M A := fun node => (Return a, node).

Definition raise {A} (e : exn) : M A := fun node => (Raise e, node).

Definition bind {A B} (m : M A) (k : A → M B) : M B :=
  fun node =>
    match m node with
    | (Return a, node') => k a node'
    | (Raise e, node') => (Raise e, node')
    end.

Notation "'let*' x ':=' m 'in' k" := (bind m (fun x => k))
  (at level 10, x name, m at level 100, k at level 200).

(** [try: body except KeyError: handler]. *)
Definition try_except_KeyError {A} (body handler : M A) : M A :=
  fun node =>
    match body node with
    | (Raise (KeyError _), node') => handler node'
    | r => r
    end.

(** [xml_node.attrib[key]]: a dict subscript, [KeyError] when absent. *)
Definition attrib_getitem (key : string) : M string :=
  fun node =>
    match attrib node !! key with
    | Some v => (Return v, node)
    | None => (Raise (KeyError key), node)
    end.

(** ** Names the module imports *)

(** The constants of [pytos.common.definitions.xml_tags] this module
    reads. Their values live outside this file and no property below
    depends on them. *)
Class xml_tags : Type := {
  NAMESPACE_FIELD_ATTRIB_CONTENT : string;
  XSI_NAMESPACE_URL : string;
  Attributes_HREF : string;
  Attributes_XSI_TYPE : string;
  Attributes_XSI_NAMESPACE_TYPE : string;
  Elements_LINK : string
}.

(** ** XML_Object_Base *)

Module XML_Object_Base.

(** Modelled from the spec: [XML_Object_Base] of [pytos.common.base_types]
    is not part of this file. The spec's node wrapper keeps a tag and named
    attributes. *)
Record t : Type := mk {
  _xml_tag : string;
  _attribs : gmap string string
}.

(** Modelled from the spec: the constructor of the node wrapper, which is
    not part of this file; it records the tag and starts without
    attributes. *)
Definition __init__ (xml_tag : string) : t :=
  {| _xml_tag := xml_tag; _attribs := ∅ |}.

(** Modelled from the spec: [setAttribute(name, value)] of the node
    wrapper, which is not part of this file. *)
Definition set_attrib (self : t) (attribute_name attribute_value : string) : t :=
  {| _xml_tag := _xml_tag self;
     _attribs := <[attribute_name := attribute_value]> (_attribs self) |}.

(** Modelled from the spec: [getAttribute(name) → string|absent] of the
    node wrapper, which is not part of this file. *)
Definition get_attrib (self : t) (attribute_name : string) : option string :=
  _attribs self !! attribute_name.

End XML_Object_Base.

(** ** Base_Object *)

Module Base_Object.

(** An instance: the six identity attributes [__init__] assigns, and the
    state of the [XML_Object_Base] part. *)
Record t : Type := mk {
  id : pyval;
  name : pyval;
  type : pyval;
  display_name : pyval;
  global_ : pyval;
  application_id : pyval;
  xml : XML_Object_Base.t
}.

Definition set_attrib (self : t) (attribute_name attribute_value : string) : t :=
  {| id := id self; name := name self; type := type self;
     display_name := display_name self; global_ := global_ self;
     application_id := application_id self;
     xml := XML_Object_Base.set_attrib (xml self) attribute_name attribute_value |}.

Definition get_attrib (self : t) (attribute_name : string) : option string :=
  XML_Object_Base.get_attrib (xml self) attribute_name.

Section with_environment.
Context {tags : xml_tags}.
(** Python's builtin [hash]. *)
Variable hash : pyval → Z.

Definition __init__ (xml_tag : string)
    (display_name is_global object_id name object_type application_id : pyval) : t :=
  let self :=
    {| id := object_id;
       name := name;
       type := object_type;
       display_name := display_name;
       global_ := is_global;
       application_id := application_id;
       xml := XML_Object_Base.__init__ xml_tag |} in
  set_attrib self NAMESPACE_FIELD_ATTRIB_CONTENT XSI_NAMESPACE_URL.

Definition __hash__ (self : t) : Z := hash (id self).

(** [str_to_bool] of [pytos.common.functions]. *)
Variable str_to_bool : pyval → result bool.

Definition is_global (self : t) : result bool := str_to_bool (global_ self).

Definition _key (self : t) : pyval * pyval * pyval * pyval * pyval * pyval :=
  (id self, name self, type self, display_name self, global_ self,
   application_id self).

End with_environment.

(** Python's [==] on the 6-tuples [_key] returns: componentwise. *)
Definition key_eq (k1 k2 : pyval * pyval * pyval * pyval * pyval * pyval) : bool :=
  let '(a1, b1, c1, d1, e1, f1) := k1 in
  let '(a2, b2, c2, d2, e2, f2) := k2 in
  py_eq a1 a2 && py_eq b1 b2 && py_eq c1 c2 && py_eq d1 d2 && py_eq e1 e2
  && py_eq f1 f2.

(** Modelled from the spec: [__eq__] is inherited from [XML_Object_Base]
    ([pytos.common.base_types]), which is not part of this file; per the
    spec a Base Entity "defines equality ... from identity fields", that
    is, from what [_key] returns. *)
Definition __eq__ (self other : t) : bool := key_eq (_key self) (_key other).

End Base_Object.

(** ** Base_Link_Target *)

Module Base_Link_Target.

Record t : Type := mk {
  id : pyval;
  display_name : pyval;
  name : pyval;
  link : XML_Object_Base.t;
  xml : XML_Object_Base.t
}.

Section with_environment.
Context {tags : xml_tags}.

Definition __init__ (xml_tag : string) (connection_id display_name name : pyval)
    (link : XML_Object_Base.t) : t :=
  {| id := connection_id;
     display_name := display_name;
     name := name;
     link := link;
     xml := XML_Object_Base.__init__ xml_tag |}.

Definition get_reference_link (self : t) : option string :=
  XML_Object_Base.get_attrib (link self) Attributes_HREF.

Definition _key (self : t) : pyval * pyval * XML_Object_Base.t * pyval :=
  (display_name self, name self, link self, id self).

End with_environment.

End Base_Link_Target.

(** ** URL_Link *)

Module URL_Link.

Section with_environment.
Context {tags : xml_tags}.

Definition __init__ (url : string) : XML_Object_Base.t :=
  let self := XML_Object_Base.__init__ Elements_LINK in
  let self := XML_Object_Base.set_attrib self NAMESPACE_FIELD_ATTRIB_CONTENT
                XSI_NAMESPACE_URL in
  XML_Object_Base.set_attrib self Attributes_HREF url.

Definition from_xml_node : M XML_Object_Base.t :=
  let* url := attrib_getitem Attributes_HREF in
  ret (__init__ url).

End with_environment.

End URL_Link.

(** ** Classes held by a registry *)

(** What the dispatcher uses of a registered class: the identifier it is
    filed under and its [from_xml_node] classmethod. *)
Record PyClass : Type := {
  class_identifier : string;
  from_xml_node : M Base_Object.t
}.

(** [registry[key]]: a dict subscript, [KeyError] when absent. *)
Definition registry_getitem (registry : gmap string PyClass) (key : string) : M PyClass :=
  fun node =>
    match registry !! key with
    | Some cls => (Return cls, node)
    | None => (Raise (KeyError key), node)
    end.

(** The positional arguments a concrete subclass hands to the family's
    [__init__] after reading them from the node. *)
Record init_args : Type := {
  arg_display_name : pyval;
  arg_is_global : pyval;
  arg_object_id : pyval;
  arg_name : pyval;
  arg_object_type : pyval;
  arg_application_id : pyval
}.

(** The declaration of a concrete subclass: its [class_identifier], its
    XML tag and how it reads its constructor arguments from a node. *)
Record declaration : Type := {
  decl_identifier : string;
  decl_xml_tag : string;
  decl_extract : Element → result init_args
}.

(** ** SubclassWithIdentifierRegistry *)

Module SubclassWithIdentifierRegistry.

(** Modelled from the spec: the metaclass [SubclassWithIdentifierRegistry]
    of [pytos.common.base_types] is not part of this file. Per the spec,
    [register(discriminator, variantParser)] is "called once when each
    variant type is defined; fails ... if the same discriminator is
    registered twice within a family". *)
Definition register (registry : gmap string PyClass) (cls : PyClass)
    : result (gmap string PyClass) :=
  match registry !! class_identifier cls with
  | Some _ => Raise (OtherError "DuplicateRegistration" (class_identifier cls))
  | None => Return (<[class_identifier cls := cls]> registry)
  end.

(** Modelled from the spec: the registry after the module-load-time
    definition of the listed classes, in order ("population happens once
    at load time before any lookup"); the metaclass is not part of this
    file. *)
Fixpoint populate (registry : gmap string PyClass) (classes : list PyClass)
    : result (gmap string PyClass) :=
  match classes with
  | [] => Return registry
  | cls :: rest =>
      match register registry cls with
      | Return registry' => populate registry' rest
      | Raise e => Raise e
      end
  end.

End SubclassWithIdentifierRegistry.

(** ** Network_Object *)

Module Network_Object.

Section with_environment.
Context {tags : xml_tags}.
(** Python's builtin [hash]. *)
Variable hash : pyval → Z.
(** [xml.etree.ElementTree.fromstring]. *)
Variable ET_fromstring : string → result Element.
(** The class attribute [registry] the metaclass gives the family. *)
Variable registry : gmap string PyClass.

Definition __init__ (xml_tag : string)
    (display_name is_global object_id name object_type : pyval)
    (attr_type : string) (application_id : pyval) : Base_Object.t :=
  let self := Base_Object.__init__ xml_tag display_name is_global object_id name
                object_type application_id in
  Base_Object.set_attrib self Attributes_XSI_TYPE attr_type.

Definition __hash__ (self : Base_Object.t) : Z :=
  hash (PyStr (str (Base_Object.id self))).

Definition from_xml_node_auto_type : M Base_Object.t :=
  let* network_object_type :=
    try_except_KeyError
      (attrib_getitem Attributes_XSI_NAMESPACE_TYPE)
      (raise (ValueError "XML Node is missing type attribute")) in
  try_except_KeyError
    (let* cls := registry_getitem registry network_object_type in
     from_xml_node cls)
    (raise (ValueError ("Unknown network object type " ++ network_object_type))).

Definition from_xml_string_auto_type (xml_string : string) : result Base_Object.t :=
  match ET_fromstring xml_string with
  | Raise e => Raise e
  | Return xml_node => fst (from_xml_node_auto_type xml_node)
  end.

(** Modelled from the spec: the concrete network-object classes are not
    part of this file. Per the spec a variant's "own node-parsing routine
    ... extracts identity fields ... and constructs the typed object", and
    each variant is "a Base Entity plus a discriminator attribute value"
    that is the discriminator it is registered under. *)
Definition subclass (d : declaration) : PyClass :=
  {| class_identifier := decl_identifier d;
     from_xml_node := fun xml_node =>
       match decl_extract d xml_node with
       | Return a =>
           (Return (__init__ (decl_xml_tag d) (arg_display_name a)
                      (arg_is_global a) (arg_object_id a) (arg_name a)
                      (arg_object_type a) (decl_identifier d)
                      (arg_application_id a)),
            xml_node)
       | Raise e => (Raise e, xml_node)
       end |}.

End with_environment.

End Network_Object.

(** ** Service_Object *)

Module Service_Object.

Section with_environment.
Context {tags : xml_tags}.
(** Python's builtin [hash]. *)
Variable hash : pyval → Z.
(** [xml.etree.ElementTree.fromstring]. *)
Variable ET_fromstring : string → result Element.
(** The class attribute [registry] the metaclass gives the family. *)
Variable registry : gmap string PyClass.
(** [Network_Object.registry], the other family's class attribute. *)
Variable Network_Object_registry : gmap string PyClass.

Definition __init__ (xml_tag : string)
    (display_name is_global object_id name object_type : pyval)
    (attr_type : string) (application_id : pyval) : Base_Object.t :=
  let self := Base_Object.__init__ xml_tag display_name is_global object_id name
                object_type application_id in
  Base_Object.set_attrib self Attributes_XSI_TYPE attr_type.

Definition __hash__ (self : Base_Object.t) : Z :=
  hash (PyStr (str (Base_Object.id self))).

Definition from_xml_string_auto_type (xml_string : string) : result Base_Object.t :=
  match ET_fromstring xml_string with
  | Raise e => Raise e
  | Return xml_node =>
      fst (Network_Object.from_xml_node_auto_type Network_Object_registry xml_node)
  end.

Definition from_xml_node_auto_type : M Base_Object.t :=
  let* service_type :=
    try_except_KeyError
      (attrib_getitem Attributes_XSI_NAMESPACE_TYPE)
      (raise (ValueError "XML Node is missing type attribute")) in
  try_except_KeyError
    (let* cls := registry_getitem registry service_type in
     from_xml_node cls)
    (raise (ValueError ("Unknown network object type " ++ service_type))).

(** Modelled from the spec: the concrete service-object classes are not
    part of this file. Per the spec a variant's "own node-parsing routine
    ... extracts identity fields ... and constructs the typed object", and
    each variant is "a Base Entity plus a discriminator attribute value"
    that is the discriminator it is registered under. *)
Definition subclass (d : declaration) : PyClass :=
  {| class_identifier := decl_identifier d;
     from_xml_node := fun xml_node =>
       match decl_extract d xml_node with
       | Return a =>
           (Return (__init__ (decl_xml_tag d) (arg_display_name a)
                      (arg_is_global a) (arg_object_id a) (arg_name a)
                      (arg_object_type a) (decl_identifier d)
                      (arg_application_id a)),
            xml_node)
       | Raise e => (Raise e, xml_node)
       end |}.

End with_environment.

End Service_Object.

(** ** Auxiliary notions for the statements *)

(** Python's [needle in haystack] on strings. *)
Fixpoint py_in (needle haystack : string) : bool :=
  String.prefix needle haystack
  || match haystack with
     | EmptyString => false
     | String _ rest => py_in needle rest
     end.

(** A method leaves the node it is given as it found it. *)
Definition leaves_node {A} (m : M A) (node : Element) : Prop :=
  snd (m node) = node.

(** ** A concrete environment *)

Module Sample.

(** The attribute and element names as the REST API spells them. *)
Definition tags : xml_tags :=
  {| NAMESPACE_FIELD_ATTRIB_CONTENT := "xmlns:xsi";
     XSI_NAMESPACE_URL := "http://www.w3.org/2001/XMLSchema-instance";
     Attributes_HREF := "href";
     Attributes_XSI_TYPE := "xsi:type";
     Attributes_XSI_NAMESPACE_TYPE :=
       "{http://www.w3.org/2001/XMLSchema-instance}type";
     Elements_LINK := "link" |}.

Definition leaf (tag text : string) : Element :=
  mkElement tag ∅ (Some text) [].

(** [<tag xsi:type=d><id>5</id><name>srv1</name><type>host</type>
    <displayName>srv1</displayName><global>false</global></tag>] as
    ElementTree holds it. *)
Definition typed_node (tag d : string) : Element :=
  mkElement tag
    {[ "{http://www.w3.org/2001/XMLSchema-instance}type" := d ]}
    None
    [leaf "id" "5"; leaf "name" "srv1"; leaf "type" "host";
     leaf "displayName" "srv1"; leaf "global" "false"].

(** The same element without the [xsi:type] attribute. *)
Definition untyped_node : Element :=
  mkElement "object" ∅ None
    [leaf "id" "5"; leaf "name" "srv1"; leaf "type" "host";
     leaf "displayName" "srv1"; leaf "global" "false"].

Definition link_node : Element :=
  mkElement "link" {[ "href" := "https://api/objects/5" ]} None [].

Definition child_text (children : list Element) (name : string) : pyval :=
  match List.find (fun c => String.eqb (tag c) name) children with
  | Some c => match text c with Some s => PyStr s | None => PyNone end
  | None => PyNone
  end.

(** A reader of the identity fields from the child elements. *)
Definition extract (xml_node : Element) : result init_args :=
  let cs := children xml_node in
  Return {| arg_display_name := child_text cs "displayName";
            arg_is_global := child_text cs "global";
            arg_object_id := child_text cs "id";
            arg_name := child_text cs "name";
            arg_object_type := child_text cs "type";
            arg_application_id := child_text cs "applicationId" |}.

Definition host : declaration :=
  {| decl_identifier := "host_object";
     decl_xml_tag := "network_object";
     decl_extract := extract |}.

Definition tcp_service : declaration :=
  {| decl_identifier := "tcp_service";
     decl_xml_tag := "service";
     decl_extract := extract |}.

(** [Network_Object.registry] once the class [host] is defined. *)
Definition network_registry : gmap string PyClass :=
  {[ "host_object" := Network_Object.subclass (tags := tags) host ]}.

(** [Service_Object.registry] once the class [tcp_service] is defined. *)
Definition service_registry : gmap string PyClass :=
  {[ "tcp_service" := Service_Object.subclass (tags := tags) tcp_service ]}.

Definition service_text : string :=
  "<service xmlns:xsi='http://www.w3.org/2001/XMLSchema-instance' xsi:type='tcp_service'><id>5</id><name>srv1</name><type>host</type><displayName>srv1</displayName><global>false</global></service>".

(** [ET.fromstring] on the one text used below. *)
Definition fromstring (xml_string : string) : result Element :=
  if String.eqb xml_string service_text
  then Return (typed_node "service" "tcp_service")
  else Raise (ParseError "syntax error").

Definition hash (v : pyval) : Z :=
  match v with
  | PyNone => 0
  | PyInt z => z
  | PyStr s => Z.of_nat (String.length s)
  end.

Definition entity (object_id : Z) : Base_Object.t :=
  Base_Object.__init__ (tags := tags) "network_object" (PyStr "srv1")
    (PyStr "false") (PyInt object_id) (PyStr "srv1") (PyStr "host") PyNone.

End Sample.

(** ** Base_Service *)

(** The element names of [pytos.common.definitions.xml_tags] that
    [Base_Service] reads. Their values live outside this file. *)
Class xml_elements : Type := {
  Elements_SERVICE : string;
  Elements_DISPLAY_NAME : string;
  Elements_GLOBAL : string;
  Elements_ID : string;
  Elements_NAME : string;
  Elements_TYPE : string;
  Elements_UID : string;
  Elements_APPLICATION_ID : string
}.

Module Base_Service.

(** An instance: the attribute [uid] and the [Base_Object] part. *)
Record t : Type := mk {
  uid : pyval;
  base : Base_Object.t
}.

Section with_environment.
Context {tags : xml_tags} {elements : xml_elements}.
(** [get_xml_text_value] and [get_xml_int_value] of
    [pytos.common.functions.xml]; both receive the node and a tag. *)
Variable get_xml_text_value : string → M pyval.
Variable get_xml_int_value : string → M pyval.

Definition __init__
    (display_name is_global service_id name service_type uid application_id : pyval)
    : t :=
  {| uid := uid;
     base := Base_Object.__init__ Elements_SERVICE display_name is_global
               service_id name service_type application_id |}.

Definition from_xml_node : M t :=
  let* display_name := get_xml_text_value Elements_DISPLAY_NAME in
  let* is_global := get_xml_text_value Elements_GLOBAL in
  let* service_id := get_xml_int_value Elements_ID in
  let* name := get_xml_text_value Elements_NAME in
  let* service_type := get_xml_text_value Elements_TYPE in
  let* uid := get_xml_text_value Elements_UID in
  let* application_id := get_xml_int_value Elements_APPLICATION_ID in
  ret (__init__ display_name is_global service_id name service_type uid
         application_id).

End with_environment.

(** [_key] is inherited from [Base_Object]: [uid] is not part of it. *)
Definition _key (self : t) : pyval * pyval * pyval * pyval * pyval * pyval :=
  Base_Object._key (base self).

(** [__hash__] is inherited from [Base_Object]. *)
Definition __hash__ (hash : pyval → Z) (self : t) : Z :=
  Base_Object.__hash__ hash (base self).

End Base_Service.

(** ** More of the concrete environment *)

Module Sample_Service.

Definition elements : xml_elements :=
  {| Elements_SERVICE := "service";
     Elements_DISPLAY_NAME := "displayName";
     Elements_GLOBAL := "global";
     Elements_ID := "id";
     Elements_NAME := "name";
     Elements_TYPE := "type";
     Elements_UID := "uid";
     Elements_APPLICATION_ID := "applicationId" |}.

Definition digit (c : Ascii.ascii) : option Z :=
  let n := Z.of_nat (Ascii.nat_of_ascii c) in
  if (48 <=? n)%Z && (n <=? 57)%Z then Some (n - 48)%Z else None.

Fixpoint digits (acc : Z) (s : string) : option Z :=
  match s with
  | EmptyString => Some acc
  | String c rest =>
      match digit c with
      | Some d => digits (10 * acc + d)%Z rest
      | None => None
      end
  end.

(** The text of the first child called [name], [None] without one. *)
Definition get_xml_text_value (name : string) : M pyval :=
  fun xml_node => (Return (Sample.child_text (children xml_node) name), xml_node).

(** The same text through [int()], which raises on a non-number. *)
Definition get_xml_int_value (name : string) : M pyval :=
  fun xml_node =>
    match Sample.child_text (children xml_node) name with
    | PyStr s =>
        match s with
        | EmptyString => (Raise (ValueError "invalid literal for int()"), xml_node)
        | _ =>
            match digits 0 s with
            | Some z => (Return (PyInt z), xml_node)
            | None => (Raise (ValueError "invalid literal for int()"), xml_node)
            end
        end
    | v => (Return v, xml_node)
    end.

(** [<service><id>ID</id><name>ssh</name><type>tcp_service</type>
    <displayName>SSH</displayName><global>true</global><uid>{abc}</uid>
    </service>]. *)
Definition service_node (id_text : string) : Element :=
  mkElement "service" ∅ None
    [Sample.leaf "id" id_text; Sample.leaf "name" "ssh";
     Sample.leaf "type" "tcp_service"; Sample.leaf "displayName" "SSH";
     Sample.leaf "global" "true"; Sample.leaf "uid" "{abc}"].

Definition str_to_bool (v : pyval) : result bool :=
  match v with
  | PyStr "true" | PyStr "True" => Return true
  | PyStr "false" | PyStr "False" => Return false
  | _ => Raise (ValueError "not a boolean")
  end.

(** A variant whose parser looks up an attribute the node lacks. *)
Definition needs_ip : declaration :=
  {| decl_identifier := "host_object";
     decl_xml_tag := "network_object";
     decl_extract := fun _ => Raise (KeyError "ip") |}.

(** A variant whose parser fails in [int()]. *)
Definition bad_id : declaration :=
  {| decl_identifier := "host_object";
     decl_xml_tag := "network_object";
     decl_extract := fun _ => Raise (ValueError "invalid literal for int()") |}.

Definition host_text : string :=
  "<object xmlns:xsi='http://www.w3.org/2001/XMLSchema-instance' xsi:type='host_object'><id>5</id><name>srv1</name><type>host</type><displayName>srv1</displayName><global>false</global></object>".

(** [ET.fromstring] on the texts used below. *)
Definition fromstring (xml_string : string) : result Element :=
  if String.eqb xml_string host_text
  then Return (Sample.typed_node "object" "host_object")
  else Sample.fromstring xml_string.

Definition renamed_entity (object_id : Z) : Base_Object.t :=
  Base_Object.__init__ (tags := Sample.tags) "network_object" (PyStr "srv2")
    (PyStr "false") (PyInt object_id) (PyStr "srv2") (PyStr "host") PyNone.

End Sample_Service.

(** * Properties *)

(** ** Strings and values *)

Lemma append_nil (s : string) : "" ++ s = s.
Proof. reflexivity. Qed.

Lemma append_cons (a : Ascii.ascii) (s t : string) :
  String a s ++ t = String a (s ++ t).
Proof. reflexivity. Qed.

Lemma prefix_app (d post : string) : String.prefix d (d ++ post) = true.
Proof.
  induction d as [|a d IH]; [destruct post; reflexivity|].
  rewrite append_cons. simpl.
  destruct (Ascii.ascii_dec a a); [exact IH | congruence].
Qed.

Lemma py_in_prefix (d s : string) : String.prefix d s = true → py_in d s = true.
Proof. intros H. destruct s; cbn [py_in]; rewrite H; reflexivity. Qed.

Lemma py_in_app (pre d post : string) : py_in d (pre ++ d ++ post) = true.
Proof.
  induction pre as [|a pre IH].
  - rewrite append_nil. apply py_in_prefix, prefix_app.
  - rewrite append_cons. cbn [py_in]. rewrite IH. apply orb_true_r.
Qed.

Lemma append_empty_r (s : string) : s ++ "" = s.
Proof.
  induction s as [|a s IH]; [reflexivity|].
  rewrite append_cons, IH. reflexivity.
Qed.

Lemma py_in_suffix (pre d : string) : py_in d (pre ++ d) = true.
Proof.
  pose proof (py_in_app pre d "") as H.
  rewrite append_empty_r in H. exact H.
Qed.

Lemma py_eq_spec (a b : pyval) : py_eq a b = true ↔ a = b.
Proof.
  destruct a, b; simpl; split; intros H; try congruence; try reflexivity.
  - apply Z.eqb_eq in H. congruence.
  - inversion H. apply Z.eqb_refl.
  - apply String.eqb_eq in H. congruence.
  - inversion H. apply String.eqb_refl.
Qed.

(** ** The dispatcher, case by case *)

Section dispatch.
Context {tags : xml_tags}.
Variable registry : gmap string PyClass.
Variable xml_node : Element.

Lemma network_missing :
  attrib xml_node !! Attributes_XSI_NAMESPACE_TYPE = None →
  Network_Object.from_xml_node_auto_type registry xml_node
  = (Raise (ValueError "XML Node is missing type attribute"), xml_node).
Proof.
  intros H. unfold Network_Object.from_xml_node_auto_type, bind,
    try_except_KeyError, attrib_getitem, raise.
  rewrite H. reflexivity.
Qed.

Lemma service_missing :
  attrib xml_node !! Attributes_XSI_NAMESPACE_TYPE = None →
  Service_Object.from_xml_node_auto_type registry xml_node
  = (Raise (ValueError "XML Node is missing type attribute"), xml_node).
Proof.
  intros H. unfold Service_Object.from_xml_node_auto_type, bind,
    try_except_KeyError, attrib_getitem, raise.
  rewrite H. reflexivity.
Qed.

Lemma network_unknown (d : string) :
  attrib xml_node !! Attributes_XSI_NAMESPACE_TYPE = Some d →
  registry !! d = None →
  Network_Object.from_xml_node_auto_type registry xml_node
  = (Raise (ValueError ("Unknown network object type " ++ d)), xml_node).
Proof.
  intros H1 H2. unfold Network_Object.from_xml_node_auto_type, bind,
    try_except_KeyError, attrib_getitem, registry_getitem, raise.
  rewrite H1, H2. reflexivity.
Qed.

Lemma service_unknown (d : string) :
  attrib xml_node !! Attributes_XSI_NAMESPACE_TYPE = Some d →
  registry !! d = None →
  Service_Object.from_xml_node_auto_type registry xml_node
  = (Raise (ValueError ("Unknown network object type " ++ d)), xml_node).
Proof.
  intros H1 H2. unfold Service_Object.from_xml_node_auto_type, bind,
    try_except_KeyError, attrib_getitem, registry_getitem, raise.
  rewrite H1, H2. reflexivity.
Qed.

(** With a registered discriminator the call is the variant's
    [from_xml_node], except that a [KeyError] escaping from it is reported
    by the second [except] clause as well. *)
Lemma network_registered (d : string) (cls : PyClass) :
  attrib xml_node !! Attributes_XSI_NAMESPACE_TYPE = Some d →
  registry !! d = Some cls →
  Network_Object.from_xml_node_auto_type registry xml_node
  = match from_xml_node cls xml_node with
    | (Raise (KeyError _), node') =>
        (Raise (ValueError ("Unknown network object type " ++ d)), node')
    | r => r
    end.
Proof.
  intros H1 H2. unfold Network_Object.from_xml_node_auto_type, bind,
    try_except_KeyError, attrib_getitem, registry_getitem, raise.
  rewrite H1, H2. destruct (from_xml_node cls xml_node) as [[obj|[]] node'];
    reflexivity.
Qed.

Lemma service_registered (d : string) (cls : PyClass) :
  attrib xml_node !! Attributes_XSI_NAMESPACE_TYPE = Some d →
  registry !! d = Some cls →
  Service_Object.from_xml_node_auto_type registry xml_node
  = match from_xml_node cls xml_node with
    | (Raise (KeyError _), node') =>
        (Raise (ValueError ("Unknown network object type " ++ d)), node')
    | r => r
    end.
Proof.
  intros H1 H2. unfold Service_Object.from_xml_node_auto_type, bind,
    try_except_KeyError, attrib_getitem, registry_getitem, raise.
  rewrite H1, H2. destruct (from_xml_node cls xml_node) as [[obj|[]] node'];
    reflexivity.
Qed.

(** The dispatcher itself only reads the node: it leaves it as the
    callee it delegates to leaves it. *)
Lemma network_frame :
  (∀ d cls,
     attrib xml_node !! Attributes_XSI_NAMESPACE_TYPE = Some d →
     registry !! d = Some cls →
     leaves_node (from_xml_node cls) xml_node) →
  leaves_node (Network_Object.from_xml_node_auto_type registry) xml_node.
Proof.
  intros Hread. unfold leaves_node in *.
  destruct (attrib xml_node !! Attributes_XSI_NAMESPACE_TYPE) as [d|] eqn:Hattr.
  - destruct (registry !! d) as [cls|] eqn:Hreg.
    + rewrite (network_registered d cls Hattr Hreg).
      specialize (Hread d cls eq_refl Hreg).
      destruct (from_xml_node cls xml_node) as [[obj|[]] node']; exact Hread.
    + rewrite (network_unknown d Hattr Hreg). reflexivity.
  - rewrite (network_missing Hattr). reflexivity.
Qed.

Lemma service_frame :
  (∀ d cls,
     attrib xml_node !! Attributes_XSI_NAMESPACE_TYPE = Some d →
     registry !! d = Some cls →
     leaves_node (from_xml_node cls) xml_node) →
  leaves_node (Service_Object.from_xml_node_auto_type registry) xml_node.
Proof.
  intros Hread. unfold leaves_node in *.
  destruct (attrib xml_node !! Attributes_XSI_NAMESPACE_TYPE) as [d|] eqn:Hattr.
  - destruct (registry !! d) as [cls|] eqn:Hreg.
    + rewrite (service_registered d cls Hattr Hreg).
      specialize (Hread d cls eq_refl Hreg).
      destruct (from_xml_node cls xml_node) as [[obj|[]] node']; exact Hread.
    + rewrite (service_unknown d Hattr Hreg). reflexivity.
  - rewrite (service_missing Hattr). reflexivity.
Qed.

End dispatch.

(** ** Registries filled by class definitions *)

Lemma populate_lookup (classes : list PyClass) :
  ∀ (r0 r : gmap string PyClass) (d : string) (c : PyClass),
    SubclassWithIdentifierRegistry.populate r0 classes = Return r →
    r !! d = Some c →
    r0 !! d = Some c ∨ (List.In c classes ∧ class_identifier c = d).
Proof.
  induction classes as [|cls rest IH]; intros r0 r d c Hpop Hget; simpl in Hpop.
  - inversion Hpop; subst. left; exact Hget.
  - unfold SubclassWithIdentifierRegistry.register in Hpop.
    destruct (r0 !! class_identifier cls) eqn:Hfree; [discriminate|].
    destruct (IH _ _ _ _ Hpop Hget) as [Hin | [Hin Hid]].
    + rewrite lookup_insert in Hin. case_decide as Hd.
      * inversion Hin; subst c. right. split; [left; reflexivity | exact Hd].
      * left; exact Hin.
    + right. split; [right; exact Hin | exact Hid].
Qed.

Section variants.
Context {tags : xml_tags}.

Lemma network_subclass_discriminator (decl : declaration) node obj node' :
  from_xml_node (Network_Object.subclass decl) node = (Return obj, node') →
  Base_Object.get_attrib obj Attributes_XSI_TYPE = Some (decl_identifier decl).
Proof.
  simpl. destruct (decl_extract decl node); intros H; inversion H; subst.
  apply lookup_insert_eq.
Qed.

Lemma service_subclass_discriminator (decl : declaration) node obj node' :
  from_xml_node (Service_Object.subclass decl) node = (Return obj, node') →
  Base_Object.get_attrib obj Attributes_XSI_TYPE = Some (decl_identifier decl).
Proof.
  simpl. destruct (decl_extract decl node); intros H; inversion H; subst.
  apply lookup_insert_eq.
Qed.

Lemma network_subclass_leaves_node (decl : declaration) node :
  leaves_node (from_xml_node (Network_Object.subclass decl)) node.
Proof. unfold leaves_node; simpl. destruct (decl_extract decl node); reflexivity. Qed.

Lemma service_subclass_leaves_node (decl : declaration) node :
  leaves_node (from_xml_node (Service_Object.subclass decl)) node.
Proof. unfold leaves_node; simpl. destruct (decl_extract decl node); reflexivity. Qed.

End variants.

(** ** Service_Object.from_xml_string_auto_type *)

(** Whatever the text, the service family's string entry point is the
    network family's: the service registry plays no part in it. *)
Lemma service_string_is_network_string {tags : xml_tags}
    (ET_fromstring : string → result Element)
    (network_registry : gmap string PyClass) (xml_string : string) :
  Service_Object.from_xml_string_auto_type ET_fromstring network_registry xml_string
  = Network_Object.from_xml_string_auto_type ET_fromstring network_registry xml_string.
Proof. reflexivity. Qed.

(** C1: a text whose [xsi:type] is registered in the service family's
    registry should be parsed by the service variant filed under it. On the
    text [Sample.service_text], typed [tcp_service], the node-based service
    entry point does return the [tcp_service] object, but
    [Service_Object.from_xml_string_auto_type] looks the type up in the
    network registry and raises [ValueError]. *)
Theorem service_string_auto_type_consults_network_registry :
  Sample.fromstring Sample.service_text
    = Return (Sample.typed_node "service" "tcp_service")
  ∧ Sample.service_registry !! "tcp_service"
    = Some (Service_Object.subclass (tags := Sample.tags) Sample.tcp_service)
  ∧ fst (Service_Object.from_xml_node_auto_type (tags := Sample.tags)
           Sample.service_registry (Sample.typed_node "service" "tcp_service"))
    = fst (from_xml_node
             (Service_Object.subclass (tags := Sample.tags) Sample.tcp_service)
             (Sample.typed_node "service" "tcp_service"))
  ∧ (∃ obj,
       fst (Service_Object.from_xml_node_auto_type (tags := Sample.tags)
              Sample.service_registry (Sample.typed_node "service" "tcp_service"))
       = Return obj)
  ∧ Service_Object.from_xml_string_auto_type (tags := Sample.tags)
      Sample.fromstring Sample.network_registry Sample.service_text
    = Raise (ValueError "Unknown network object type tcp_service").
Proof.
  split; [reflexivity|]. split; [reflexivity|]. split; [reflexivity|].
  split; [eexists; reflexivity|]. reflexivity.
Qed.

(** The same in general: a discriminator known to the service family only
    is reported as unknown by the service family's string entry point. *)
Lemma service_string_unknown_to_network {tags : xml_tags}
    (ET_fromstring : string → result Element)
    (network_registry service_registry : gmap string PyClass)
    (xml_string : string) (xml_node : Element) (d : string) (cls : PyClass) :
  ET_fromstring xml_string = Return xml_node →
  attrib xml_node !! Attributes_XSI_NAMESPACE_TYPE = Some d →
  service_registry !! d = Some cls →
  network_registry !! d = None →
  Service_Object.from_xml_string_auto_type ET_fromstring network_registry xml_string
  = Raise (ValueError ("Unknown network object type " ++ d)).
Proof.
  intros Hparse Hattr _ Hnet. unfold Service_Object.from_xml_string_auto_type.
  rewrite Hparse, (network_unknown _ _ d Hattr Hnet). reflexivity.
Qed.

(** ** Failures of the dispatcher *)

(** C2: a node without the XSI type attribute makes
    [from_xml_node_auto_type] of the network family and of the service
    family raise the "missing type attribute" [ValueError]; neither returns
    an object. *)
Theorem auto_type_missing_type_attribute {tags : xml_tags}
    (network_registry service_registry : gmap string PyClass)
    (xml_node : Element) :
  attrib xml_node !! Attributes_XSI_NAMESPACE_TYPE = None →
  fst (Network_Object.from_xml_node_auto_type network_registry xml_node)
  = Raise (ValueError "XML Node is missing type attribute")
  ∧ fst (Service_Object.from_xml_node_auto_type service_registry xml_node)
    = Raise (ValueError "XML Node is missing type attribute")
  ∧ ∀ obj,
      fst (Network_Object.from_xml_node_auto_type network_registry xml_node)
      ≠ Return obj
      ∧ fst (Service_Object.from_xml_node_auto_type service_registry xml_node)
        ≠ Return obj.
Proof.
  intros H. rewrite (network_missing _ _ H), (service_missing _ _ H). simpl.
  repeat split; discriminate.
Qed.

Lemma auto_type_missing_type_attribute_witness :
  attrib Sample.untyped_node
    !! Attributes_XSI_NAMESPACE_TYPE (xml_tags := Sample.tags) = None
  ∧ fst (Network_Object.from_xml_node_auto_type (tags := Sample.tags)
           Sample.network_registry Sample.untyped_node)
    = Raise (ValueError "XML Node is missing type attribute")
  ∧ fst (Service_Object.from_xml_node_auto_type (tags := Sample.tags)
           Sample.service_registry Sample.untyped_node)
    = Raise (ValueError "XML Node is missing type attribute").
Proof.
  split; [reflexivity|].
  pose proof (auto_type_missing_type_attribute (tags := Sample.tags)
                Sample.network_registry Sample.service_registry
                Sample.untyped_node eq_refl) as [Hn [Hs _]].
  split; [exact Hn | exact Hs].
Defined.

(** C3: a node whose discriminator has no entry in the family's registry
    makes [from_xml_node_auto_type] raise the "unknown object type"
    [ValueError], whose message is "Unknown network object type " followed
    by that discriminator and so contains it verbatim, in the network
    family and in the service family. *)
Theorem auto_type_unknown_type_names_value {tags : xml_tags}
    (network_registry service_registry : gmap string PyClass)
    (xml_node : Element) (d : string) :
  attrib xml_node !! Attributes_XSI_NAMESPACE_TYPE = Some d →
  (network_registry !! d = None →
   fst (Network_Object.from_xml_node_auto_type network_registry xml_node)
   = Raise (ValueError ("Unknown network object type " ++ d))
   ∧ py_in d ("Unknown network object type " ++ d) = true)
  ∧ (service_registry !! d = None →
     fst (Service_Object.from_xml_node_auto_type service_registry xml_node)
     = Raise (ValueError ("Unknown network object type " ++ d))
     ∧ py_in d ("Unknown network object type " ++ d) = true).
Proof.
  intros Hattr. split; intros Hreg.
  - rewrite (network_unknown _ _ d Hattr Hreg). split; [reflexivity|].
    apply py_in_suffix.
  - rewrite (service_unknown _ _ d Hattr Hreg). split; [reflexivity|].
    apply py_in_suffix.
Qed.

Lemma auto_type_unknown_type_names_value_witness :
  (fst (Network_Object.from_xml_node_auto_type (tags := Sample.tags)
          Sample.network_registry (Sample.typed_node "object" "range_object"))
   = Raise (ValueError "Unknown network object type range_object")
   ∧ py_in "range_object" "Unknown network object type range_object" = true)
  ∧ (fst (Service_Object.from_xml_node_auto_type (tags := Sample.tags)
            Sample.service_registry (Sample.typed_node "object" "range_object"))
     = Raise (ValueError "Unknown network object type range_object")
     ∧ py_in "range_object" "Unknown network object type range_object" = true).
Proof.
  pose proof (auto_type_unknown_type_names_value (tags := Sample.tags)
                Sample.network_registry Sample.service_registry
                (Sample.typed_node "object" "range_object") "range_object"
                eq_refl) as [Hn Hs].
  split; [apply Hn; reflexivity | apply Hs; reflexivity].
Defined.

(** C10: in the service family an unregistered discriminator is reported
    with the network family's wording, "Unknown network object type"
    followed by the value. *)
Theorem service_unknown_type_says_network {tags : xml_tags}
    (registry : gmap string PyClass) (xml_node : Element) (d : string) :
  attrib xml_node !! Attributes_XSI_NAMESPACE_TYPE = Some d →
  registry !! d = None →
  fst (Service_Object.from_xml_node_auto_type registry xml_node)
  = Raise (ValueError ("Unknown network object type " ++ d)).
Proof.
  intros Hattr Hreg. rewrite (service_unknown _ _ d Hattr Hreg). reflexivity.
Qed.

Lemma service_unknown_type_says_network_witness :
  fst (Service_Object.from_xml_node_auto_type (tags := Sample.tags)
         Sample.service_registry (Sample.typed_node "service" "udp_service"))
  = Raise (ValueError "Unknown network object type udp_service").
Proof.
  apply (service_unknown_type_says_network (tags := Sample.tags)
           Sample.service_registry (Sample.typed_node "service" "udp_service")
           "udp_service"); reflexivity.
Defined.

(** ** Equality and hashing *)

(** C4: two Base_Objects are equal exactly when their [id], [name],
    [type], [display_name], [global_] and [application_id] are pairwise
    equal; in particular objects with different [id] are unequal whatever
    their other fields. *)
Theorem Base_Object_eq_iff_key_fields (a b : Base_Object.t) :
  (Base_Object.__eq__ a b = true
   ↔ Base_Object.id a = Base_Object.id b
     ∧ Base_Object.name a = Base_Object.name b
     ∧ Base_Object.type a = Base_Object.type b
     ∧ Base_Object.display_name a = Base_Object.display_name b
     ∧ Base_Object.global_ a = Base_Object.global_ b
     ∧ Base_Object.application_id a = Base_Object.application_id b)
  ∧ (Base_Object.id a ≠ Base_Object.id b → Base_Object.__eq__ a b = false).
Proof.
  assert (Hiff : Base_Object.__eq__ a b = true
   ↔ Base_Object.id a = Base_Object.id b
     ∧ Base_Object.name a = Base_Object.name b
     ∧ Base_Object.type a = Base_Object.type b
     ∧ Base_Object.display_name a = Base_Object.display_name b
     ∧ Base_Object.global_ a = Base_Object.global_ b
     ∧ Base_Object.application_id a = Base_Object.application_id b).
  { unfold Base_Object.__eq__, Base_Object._key, Base_Object.key_eq.
    rewrite !andb_true_iff, !py_eq_spec. tauto. }
  split; [exact Hiff|].
  intros Hid. destruct (Base_Object.__eq__ a b) eqn:E; [|reflexivity].
  exfalso. apply Hid. apply Hiff. reflexivity.
Qed.

Lemma Base_Object_eq_iff_key_fields_witness :
  Base_Object.__eq__ (Sample.entity 5) (Sample.entity 5) = true
  ∧ Base_Object.__eq__ (Sample.entity 5) (Sample.entity 6) = false.
Proof.
  split.
  - apply (proj1 (Base_Object_eq_iff_key_fields (Sample.entity 5) (Sample.entity 5))).
    repeat split; reflexivity.
  - apply (proj2 (Base_Object_eq_iff_key_fields (Sample.entity 5) (Sample.entity 6))).
    simpl. discriminate.
Defined.

(** C5: a Base_Object built by [__init__] hashes to the hash of the id it
    was given, so two of them built with one id hash alike whatever their
    other fields; a Network_Object and a Service_Object built by [__init__]
    hash to the hash of [str] of that id. *)
Theorem hash_by_id_and_by_str_id {tags : xml_tags} (hash : pyval → Z)
    (xml_tag xml_tag' attr_type : string)
    (display_name is_global object_id name object_type application_id : pyval)
    (display_name' is_global' name' object_type' application_id' : pyval) :
  Base_Object.__hash__ hash
    (Base_Object.__init__ xml_tag display_name is_global object_id name
       object_type application_id)
  = hash object_id
  ∧ Base_Object.__hash__ hash
      (Base_Object.__init__ xml_tag display_name is_global object_id name
         object_type application_id)
    = Base_Object.__hash__ hash
        (Base_Object.__init__ xml_tag' display_name' is_global' object_id name'
           object_type' application_id')
  ∧ Network_Object.__hash__ hash
      (Network_Object.__init__ xml_tag display_name is_global object_id name
         object_type attr_type application_id)
    = hash (PyStr (str object_id))
  ∧ Service_Object.__hash__ hash
      (Service_Object.__init__ xml_tag display_name is_global object_id name
         object_type attr_type application_id)
    = hash (PyStr (str object_id)).
Proof. repeat split. Qed.

Example hash_of_sample_entity :
  Base_Object.__hash__ Sample.hash (Sample.entity 12345) = 12345%Z
  ∧ Network_Object.__hash__ Sample.hash (Sample.entity 12345) = 5%Z
  ∧ str (PyInt (-7)) = "-7".
Proof. repeat split. Qed.

(** ** Dispatch on a registered discriminator *)

(** C6: in a family whose registry was filled by the definition of its
    variants, a node whose discriminator [d] is registered is parsed by the
    class registered under [d]: the dispatcher returns exactly the object
    that class's [from_xml_node] produces, and that object carries [d] as
    its XSI type. *)
Theorem auto_type_dispatches_to_registered_variant {tags : xml_tags} :
  (∀ (decls : list declaration) (registry : gmap string PyClass)
     (xml_node : Element) (d : string) (cls : PyClass)
     (obj : Base_Object.t) (node' : Element),
     SubclassWithIdentifierRegistry.populate ∅
       (List.map Network_Object.subclass decls) = Return registry →
     attrib xml_node !! Attributes_XSI_NAMESPACE_TYPE = Some d →
     registry !! d = Some cls →
     from_xml_node cls xml_node = (Return obj, node') →
     Network_Object.from_xml_node_auto_type registry xml_node = (Return obj, node')
     ∧ Base_Object.get_attrib obj Attributes_XSI_TYPE = Some d)
  ∧ (∀ (decls : list declaration) (registry : gmap string PyClass)
       (xml_node : Element) (d : string) (cls : PyClass)
       (obj : Base_Object.t) (node' : Element),
       SubclassWithIdentifierRegistry.populate ∅
         (List.map Service_Object.subclass decls) = Return registry →
       attrib xml_node !! Attributes_XSI_NAMESPACE_TYPE = Some d →
       registry !! d = Some cls →
       from_xml_node cls xml_node = (Return obj, node') →
       Service_Object.from_xml_node_auto_type registry xml_node = (Return obj, node')
       ∧ Base_Object.get_attrib obj Attributes_XSI_TYPE = Some d).
Proof.
  split; intros decls registry xml_node d cls obj node' Hpop Hattr Hreg Hcls.
  - split.
    + rewrite (network_registered _ _ d cls Hattr Hreg), Hcls. reflexivity.
    + destruct (populate_lookup _ _ _ _ _ Hpop Hreg) as [Hnone | [Hin Hid]].
      * rewrite lookup_empty in Hnone. discriminate.
      * apply in_map_iff in Hin as [decl [<- _]]. rewrite <- Hid.
        exact (network_subclass_discriminator decl _ _ _ Hcls).
  - split.
    + rewrite (service_registered _ _ d cls Hattr Hreg), Hcls. reflexivity.
    + destruct (populate_lookup _ _ _ _ _ Hpop Hreg) as [Hnone | [Hin Hid]].
      * rewrite lookup_empty in Hnone. discriminate.
      * apply in_map_iff in Hin as [decl [<- _]]. rewrite <- Hid.
        exact (service_subclass_discriminator decl _ _ _ Hcls).
Qed.

Lemma auto_type_dispatches_to_registered_variant_witness :
  (∃ obj,
     Network_Object.from_xml_node_auto_type (tags := Sample.tags)
       Sample.network_registry (Sample.typed_node "object" "host_object")
     = (Return obj, Sample.typed_node "object" "host_object")
     ∧ Base_Object.get_attrib obj "xsi:type" = Some "host_object"
     ∧ Base_Object.id obj = PyStr "5")
  ∧ (∃ obj,
       Service_Object.from_xml_node_auto_type (tags := Sample.tags)
         Sample.service_registry (Sample.typed_node "service" "tcp_service")
       = (Return obj, Sample.typed_node "service" "tcp_service")
       ∧ Base_Object.get_attrib obj "xsi:type" = Some "tcp_service").
Proof.
  split.
  - eexists. split; [|split].
    + apply (proj1 (auto_type_dispatches_to_registered_variant (tags := Sample.tags))
               [Sample.host] Sample.network_registry
               (Sample.typed_node "object" "host_object") "host_object"
               (Network_Object.subclass (tags := Sample.tags) Sample.host));
        reflexivity.
    + reflexivity.
    + reflexivity.
  - eexists. split.
    + apply (proj2 (auto_type_dispatches_to_registered_variant (tags := Sample.tags))
               [Sample.tcp_service] Sample.service_registry
               (Sample.typed_node "service" "tcp_service") "tcp_service"
               (Service_Object.subclass (tags := Sample.tags) Sample.tcp_service));
        reflexivity.
    + reflexivity.
Defined.

(** ** The source node *)

(** C7: [from_xml_node_auto_type] hands the node back as it received it,
    when it returns an object as when it raises, in both families; the one
    callee it passes the node to, the [from_xml_node] of the class
    registered under the node's discriminator, is taken to only read it. *)
Theorem auto_type_leaves_source_node {tags : xml_tags}
    (network_registry service_registry : gmap string PyClass)
    (xml_node : Element) :
  (∀ d cls,
     attrib xml_node !! Attributes_XSI_NAMESPACE_TYPE = Some d →
     network_registry !! d = Some cls ∨ service_registry !! d = Some cls →
     leaves_node (from_xml_node cls) xml_node) →
  leaves_node (Network_Object.from_xml_node_auto_type network_registry) xml_node
  ∧ leaves_node (Service_Object.from_xml_node_auto_type service_registry) xml_node.
Proof.
  intros Hread. split.
  - apply network_frame. intros d cls Hattr Hreg.
    exact (Hread d cls Hattr (or_introl Hreg)).
  - apply service_frame. intros d cls Hattr Hreg.
    exact (Hread d cls Hattr (or_intror Hreg)).
Qed.

Lemma auto_type_leaves_source_node_witness :
  leaves_node
    (Network_Object.from_xml_node_auto_type (tags := Sample.tags)
       Sample.network_registry)
    (Sample.typed_node "object" "host_object")
  ∧ leaves_node
      (Service_Object.from_xml_node_auto_type (tags := Sample.tags)
         Sample.service_registry)
      (Sample.typed_node "object" "host_object").
Proof.
  apply (auto_type_leaves_source_node (tags := Sample.tags)).
  intros d cls Hattr Hreg. vm_compute in Hattr.
  injection Hattr as <-.
  destruct Hreg as [Hreg | Hreg]; vm_compute in Hreg.
  - injection Hreg as <-. reflexivity.
  - discriminate Hreg.
Defined.

(** When the registries were filled by the definition of the families'
    variants, every registered parser only reads the node, and the
    dispatchers leave every node as it was. *)
Lemma auto_type_leaves_source_node_declared {tags : xml_tags}
    (network_decls service_decls : list declaration)
    (network_registry service_registry : gmap string PyClass)
    (xml_node : Element) :
  SubclassWithIdentifierRegistry.populate ∅
    (List.map Network_Object.subclass network_decls) = Return network_registry →
  SubclassWithIdentifierRegistry.populate ∅
    (List.map Service_Object.subclass service_decls) = Return service_registry →
  leaves_node (Network_Object.from_xml_node_auto_type network_registry) xml_node
  ∧ leaves_node (Service_Object.from_xml_node_auto_type service_registry) xml_node.
Proof.
  intros Hn Hs.
  assert (Hnet : ∀ d cls, network_registry !! d = Some cls →
                          leaves_node (from_xml_node cls) xml_node).
  { intros d cls Hreg.
    destruct (populate_lookup _ _ _ _ _ Hn Hreg) as [Hnone | [Hin _]].
    - rewrite lookup_empty in Hnone. discriminate.
    - apply in_map_iff in Hin as [decl [<- _]].
      apply network_subclass_leaves_node. }
  assert (Hsvc : ∀ d cls, service_registry !! d = Some cls →
                          leaves_node (from_xml_node cls) xml_node).
  { intros d cls Hreg.
    destruct (populate_lookup _ _ _ _ _ Hs Hreg) as [Hnone | [Hin _]].
    - rewrite lookup_empty in Hnone. discriminate.
    - apply in_map_iff in Hin as [decl [<- _]].
      apply service_subclass_leaves_node. }
  split.
  - apply network_frame. intros d cls _ Hreg. exact (Hnet d cls Hreg).
  - apply service_frame. intros d cls _ Hreg. exact (Hsvc d cls Hreg).
Qed.

(** ** Links *)

(** C8: on a node without the [href] attribute [URL_Link.from_xml_node]
    raises, and the [KeyError] reaches the caller; on a node with it, the
    result is the [URL_Link] built from the attribute's value, whose own
    [href] is that value. *)
Theorem URL_Link_from_xml_node_href {tags : xml_tags} (xml_node : Element) :
  (attrib xml_node !! Attributes_HREF = None →
   fst (URL_Link.from_xml_node xml_node) = Raise (KeyError Attributes_HREF))
  ∧ (∀ url,
       attrib xml_node !! Attributes_HREF = Some url →
       fst (URL_Link.from_xml_node xml_node) = Return (URL_Link.__init__ url)
       ∧ XML_Object_Base.get_attrib (URL_Link.__init__ url) Attributes_HREF
         = Some url).
Proof.
  unfold URL_Link.from_xml_node, bind, attrib_getitem, ret.
  split.
  - intros H. rewrite H. reflexivity.
  - intros url H. rewrite H. split; [reflexivity|].
    unfold URL_Link.__init__, XML_Object_Base.get_attrib; simpl.
    apply lookup_insert_eq.
Qed.

Lemma URL_Link_from_xml_node_href_witness :
  fst (URL_Link.from_xml_node (tags := Sample.tags) Sample.untyped_node)
  = Raise (KeyError "href")
  ∧ fst (URL_Link.from_xml_node (tags := Sample.tags) Sample.link_node)
    = Return (URL_Link.__init__ (tags := Sample.tags) "https://api/objects/5")
  ∧ XML_Object_Base.get_attrib
      (URL_Link.__init__ (tags := Sample.tags) "https://api/objects/5") "href"
    = Some "https://api/objects/5".
Proof.
  split.
  - apply (proj1 (URL_Link_from_xml_node_href (tags := Sample.tags)
                    Sample.untyped_node)).
    reflexivity.
  - apply (proj2 (URL_Link_from_xml_node_href (tags := Sample.tags)
                    Sample.link_node) "https://api/objects/5").
    reflexivity.
Defined.

(** C9: a link target whose embedded link is [URL_Link(u)] answers
    [get_reference_link()] with [u]. *)
Theorem get_reference_link_of_URL_Link {tags : xml_tags}
    (self : Base_Link_Target.t) (u : string) :
  Base_Link_Target.link self = URL_Link.__init__ u →
  Base_Link_Target.get_reference_link self = Some u.
Proof.
  intros Hlink. unfold Base_Link_Target.get_reference_link. rewrite Hlink.
  unfold URL_Link.__init__, XML_Object_Base.get_attrib; simpl.
  apply lookup_insert_eq.
Qed.

Lemma get_reference_link_of_URL_Link_witness :
  Base_Link_Target.get_reference_link (tags := Sample.tags)
    (Base_Link_Target.__init__ "connection" (PyInt 5) (PyStr "srv1")
       (PyStr "srv1")
       (URL_Link.__init__ (tags := Sample.tags) "https://api/objects/5"))
  = Some "https://api/objects/5".
Proof.
  apply (get_reference_link_of_URL_Link (tags := Sample.tags)). reflexivity.
Defined.

(** * Further properties of the module *)

(** ** What the dispatcher raises and returns *)

(** X1: [from_xml_node_auto_type] never lets a [KeyError] out: a missing
    attribute, a missing registry entry and a [KeyError] of the registered
    class's parser all come out as [ValueError]. *)
Theorem auto_type_never_raises_KeyError {tags : xml_tags}
    (registry : gmap string PyClass) (xml_node : Element) (k : string) :
  fst (Network_Object.from_xml_node_auto_type registry xml_node) ≠ Raise (KeyError k)
  ∧ fst (Service_Object.from_xml_node_auto_type registry xml_node)
    ≠ Raise (KeyError k).
Proof.
  destruct (attrib xml_node !! Attributes_XSI_NAMESPACE_TYPE) as [d|] eqn:Hattr.
  - destruct (registry !! d) as [cls|] eqn:Hreg.
    + rewrite (network_registered _ _ d cls Hattr Hreg),
        (service_registered _ _ d cls Hattr Hreg).
      destruct (from_xml_node cls xml_node) as [[obj|[]] node']; simpl;
        split; discriminate.
    + rewrite (network_unknown _ _ d Hattr Hreg), (service_unknown _ _ d Hattr Hreg).
      simpl; split; discriminate.
  - rewrite (network_missing _ _ Hattr), (service_missing _ _ Hattr).
    simpl; split; discriminate.
Qed.

(** X2: when the class registered under the node's discriminator raises a
    [KeyError] of its own while parsing, the dispatcher reports the
    discriminator as an unknown type although it is registered. *)
Theorem auto_type_parser_KeyError_reported_as_unknown {tags : xml_tags}
    (registry : gmap string PyClass) (xml_node node' : Element)
    (d k : string) (cls : PyClass) :
  attrib xml_node !! Attributes_XSI_NAMESPACE_TYPE = Some d →
  registry !! d = Some cls →
  from_xml_node cls xml_node = (Raise (KeyError k), node') →
  Network_Object.from_xml_node_auto_type registry xml_node
  = (Raise (ValueError ("Unknown network object type " ++ d)), node')
  ∧ Service_Object.from_xml_node_auto_type registry xml_node
    = (Raise (ValueError ("Unknown network object type " ++ d)), node').
Proof.
  intros Hattr Hreg Hcls.
  rewrite (network_registered _ _ d cls Hattr Hreg),
    (service_registered _ _ d cls Hattr Hreg), Hcls.
  split; reflexivity.
Qed.

Lemma auto_type_parser_KeyError_reported_as_unknown_witness :
  Network_Object.from_xml_node_auto_type (tags := Sample.tags)
    {[ "host_object" :=
         Network_Object.subclass (tags := Sample.tags) Sample_Service.needs_ip ]}
    (Sample.typed_node "object" "host_object")
  = (Raise (ValueError "Unknown network object type host_object"),
     Sample.typed_node "object" "host_object").
Proof.
  apply (auto_type_parser_KeyError_reported_as_unknown (tags := Sample.tags)
           _ _ _ "host_object" "ip"
           (Network_Object.subclass (tags := Sample.tags) Sample_Service.needs_ip));
    reflexivity.
Defined.

(** X3: any other exception of the registered class's parser reaches the
    caller as it is. *)
Theorem auto_type_parser_error_propagates {tags : xml_tags}
    (registry : gmap string PyClass) (xml_node node' : Element)
    (d : string) (cls : PyClass) (e : exn) :
  attrib xml_node !! Attributes_XSI_NAMESPACE_TYPE = Some d →
  registry !! d = Some cls →
  from_xml_node cls xml_node = (Raise e, node') →
  (∀ k, e ≠ KeyError k) →
  Network_Object.from_xml_node_auto_type registry xml_node = (Raise e, node')
  ∧ Service_Object.from_xml_node_auto_type registry xml_node = (Raise e, node').
Proof.
  intros Hattr Hreg Hcls Hne.
  rewrite (network_registered _ _ d cls Hattr Hreg),
    (service_registered _ _ d cls Hattr Hreg), Hcls.
  destruct e as [msg|k|msg|kind msg]; try (split; reflexivity).
  exfalso. exact (Hne k eq_refl).
Qed.

Lemma auto_type_parser_error_propagates_witness :
  Service_Object.from_xml_node_auto_type (tags := Sample.tags)
    {[ "host_object" :=
         Network_Object.subclass (tags := Sample.tags) Sample_Service.bad_id ]}
    (Sample.typed_node "object" "host_object")
  = (Raise (ValueError "invalid literal for int()"),
     Sample.typed_node "object" "host_object").
Proof.
  apply (auto_type_parser_error_propagates (tags := Sample.tags)
           _ _ _ "host_object"
           (Network_Object.subclass (tags := Sample.tags) Sample_Service.bad_id));
    [reflexivity | reflexivity | reflexivity | intros k; discriminate].
Defined.

(** X4: an object the dispatcher returns was produced by the class
    registered under the discriminator of the node: nothing else is ever
    returned. *)
Theorem auto_type_returns_only_registered {tags : xml_tags}
    (registry : gmap string PyClass) (xml_node node' : Element)
    (obj : Base_Object.t) :
  Network_Object.from_xml_node_auto_type registry xml_node = (Return obj, node')
  ∨ Service_Object.from_xml_node_auto_type registry xml_node = (Return obj, node') →
  ∃ d cls,
    attrib xml_node !! Attributes_XSI_NAMESPACE_TYPE = Some d
    ∧ registry !! d = Some cls
    ∧ from_xml_node cls xml_node = (Return obj, node').
Proof.
  destruct (attrib xml_node !! Attributes_XSI_NAMESPACE_TYPE) as [d|] eqn:Hattr.
  - destruct (registry !! d) as [cls|] eqn:Hreg.
    + rewrite (network_registered _ _ d cls Hattr Hreg),
        (service_registered _ _ d cls Hattr Hreg).
      intros H. exists d, cls. split; [reflexivity|]. split; [exact Hreg|].
      destruct (from_xml_node cls xml_node) as [[o|[]] n'];
        destruct H as [H|H]; try discriminate H; exact H.
    + rewrite (network_unknown _ _ d Hattr Hreg), (service_unknown _ _ d Hattr Hreg).
      intros [H|H]; discriminate H.
  - rewrite (network_missing _ _ Hattr), (service_missing _ _ Hattr).
    intros [H|H]; discriminate H.
Qed.

Lemma auto_type_returns_only_registered_witness :
  ∃ d cls,
    attrib (Sample.typed_node "object" "host_object")
      !! Attributes_XSI_NAMESPACE_TYPE (xml_tags := Sample.tags) = Some d
    ∧ Sample.network_registry !! d = Some cls
    ∧ fst (from_xml_node cls (Sample.typed_node "object" "host_object"))
      = fst (Network_Object.from_xml_node_auto_type (tags := Sample.tags)
               Sample.network_registry (Sample.typed_node "object" "host_object")).
Proof.
  destruct (auto_type_returns_only_registered (tags := Sample.tags)
              Sample.network_registry
              (Sample.typed_node "object" "host_object")
              (Sample.typed_node "object" "host_object")
              (Network_Object.__init__ (tags := Sample.tags) "network_object"
                 (PyStr "srv1") (PyStr "false") (PyStr "5") (PyStr "srv1")
                 (PyStr "host") "host_object" PyNone)
              (or_introl eq_refl)) as [d [cls [Hattr [Hreg Hcls]]]].
  exists d, cls. split; [exact Hattr|]. split; [exact Hreg|].
  rewrite Hcls. reflexivity.
Defined.

(** X5: filing a class under another identifier ([registry[k] = cls])
    changes nothing for a node whose discriminator is not [k]. *)
Theorem auto_type_unaffected_by_other_entry {tags : xml_tags}
    (registry : gmap string PyClass) (k : string) (cls : PyClass)
    (xml_node : Element) :
  attrib xml_node !! Attributes_XSI_NAMESPACE_TYPE ≠ Some k →
  Network_Object.from_xml_node_auto_type (<[k := cls]> registry) xml_node
  = Network_Object.from_xml_node_auto_type registry xml_node
  ∧ Service_Object.from_xml_node_auto_type (<[k := cls]> registry) xml_node
    = Service_Object.from_xml_node_auto_type registry xml_node.
Proof.
  intros Hk.
  unfold Network_Object.from_xml_node_auto_type,
    Service_Object.from_xml_node_auto_type, bind, try_except_KeyError,
    attrib_getitem, registry_getitem, raise.
  destruct (attrib xml_node !! Attributes_XSI_NAMESPACE_TYPE) as [d|] eqn:Hattr;
    [|split; reflexivity].
  assert (Hne : k ≠ d) by (intros ->; apply Hk; reflexivity).
  rewrite (lookup_insert_ne registry k d cls Hne). split; reflexivity.
Qed.

Lemma auto_type_unaffected_by_other_entry_witness :
  Network_Object.from_xml_node_auto_type (tags := Sample.tags)
    (<["range_object" :=
         Network_Object.subclass (tags := Sample.tags) Sample_Service.needs_ip]>
       Sample.network_registry)
    (Sample.typed_node "object" "host_object")
  = Network_Object.from_xml_node_auto_type (tags := Sample.tags)
      Sample.network_registry (Sample.typed_node "object" "host_object").
Proof.
  apply (auto_type_unaffected_by_other_entry (tags := Sample.tags)).
  vm_compute. discriminate.
Defined.

(** ** The string entry points *)

(** X6: a text [ET.fromstring] rejects makes both string entry points
    raise the parser's exception; no registry is consulted. *)
Theorem from_xml_string_auto_type_parse_error {tags : xml_tags}
    (ET_fromstring : string → result Element)
    (registry registry' : gmap string PyClass) (xml_string : string) (e : exn) :
  ET_fromstring xml_string = Raise e →
  Network_Object.from_xml_string_auto_type ET_fromstring registry xml_string
  = Raise e
  ∧ Network_Object.from_xml_string_auto_type ET_fromstring registry' xml_string
    = Raise e
  ∧ Service_Object.from_xml_string_auto_type ET_fromstring registry xml_string
    = Raise e.
Proof.
  intros H. unfold Network_Object.from_xml_string_auto_type,
    Service_Object.from_xml_string_auto_type.
  rewrite H. repeat split.
Qed.

Lemma from_xml_string_auto_type_parse_error_witness :
  Network_Object.from_xml_string_auto_type (tags := Sample.tags)
    Sample_Service.fromstring Sample.network_registry "<object"
  = Raise (ParseError "syntax error")
  ∧ Service_Object.from_xml_string_auto_type (tags := Sample.tags)
      Sample_Service.fromstring Sample.network_registry "<object"
    = Raise (ParseError "syntax error").
Proof.
  pose proof (from_xml_string_auto_type_parse_error (tags := Sample.tags)
                Sample_Service.fromstring Sample.network_registry
                Sample.service_registry "<object" (ParseError "syntax error")
                eq_refl) as [Hn [_ Hs]].
  split; [exact Hn | exact Hs].
Defined.

(** X7: on a text whose discriminator is filed in the network registry,
    [Service_Object.from_xml_string_auto_type] returns the object of the
    network class filed there. *)
Theorem service_string_returns_network_variant {tags : xml_tags}
    (ET_fromstring : string → result Element)
    (network_registry : gmap string PyClass)
    (xml_string : string) (xml_node node' : Element) (d : string)
    (cls : PyClass) (obj : Base_Object.t) :
  ET_fromstring xml_string = Return xml_node →
  attrib xml_node !! Attributes_XSI_NAMESPACE_TYPE = Some d →
  network_registry !! d = Some cls →
  from_xml_node cls xml_node = (Return obj, node') →
  Service_Object.from_xml_string_auto_type ET_fromstring network_registry xml_string
  = Return obj.
Proof.
  intros Hparse Hattr Hreg Hcls.
  unfold Service_Object.from_xml_string_auto_type.
  rewrite Hparse, (network_registered _ _ d cls Hattr Hreg), Hcls. reflexivity.
Qed.

Lemma service_string_returns_network_variant_witness :
  Service_Object.from_xml_string_auto_type (tags := Sample.tags)
    Sample_Service.fromstring Sample.network_registry Sample_Service.host_text
  = Return (Network_Object.__init__ (tags := Sample.tags) "network_object"
              (PyStr "srv1") (PyStr "false") (PyStr "5") (PyStr "srv1")
              (PyStr "host") "host_object" PyNone).
Proof.
  apply (service_string_returns_network_variant (tags := Sample.tags)
           Sample_Service.fromstring Sample.network_registry
           Sample_Service.host_text (Sample.typed_node "object" "host_object")
           (Sample.typed_node "object" "host_object") "host_object"
           (Network_Object.subclass (tags := Sample.tags) Sample.host));
    reflexivity.
Defined.

(** ** Equality and hashing, continued *)

Lemma key_eq_spec (k1 k2 : pyval * pyval * pyval * pyval * pyval * pyval) :
  Base_Object.key_eq k1 k2 = true ↔ k1 = k2.
Proof.
  destruct k1 as [[[[[a1 b1] c1] d1] e1] f1], k2 as [[[[[a2 b2] c2] d2] e2] f2].
  unfold Base_Object.key_eq. rewrite !andb_true_iff, !py_eq_spec.
  split.
  - intros [[[[[-> ->] ->] ->] ->] ->]. reflexivity.
  - intros H. inversion H. tauto.
Qed.

(** X9: objects that compare equal hash alike, under [Base_Object]'s
    hash and under the [Network_Object] and [Service_Object] one. *)
Theorem eq_implies_same_hash (hash : pyval → Z) (a b : Base_Object.t) :
  Base_Object.__eq__ a b = true →
  Base_Object.__hash__ hash a = Base_Object.__hash__ hash b
  ∧ Network_Object.__hash__ hash a = Network_Object.__hash__ hash b
  ∧ Service_Object.__hash__ hash a = Service_Object.__hash__ hash b.
Proof.
  intros H. apply key_eq_spec in H. unfold Base_Object._key in H.
  assert (Hid : Base_Object.id a = Base_Object.id b) by congruence.
  unfold Base_Object.__hash__, Network_Object.__hash__, Service_Object.__hash__.
  rewrite Hid. repeat split.
Qed.

Lemma eq_implies_same_hash_witness :
  Network_Object.__hash__ Sample.hash (Sample.entity 5)
  = Network_Object.__hash__ Sample.hash
      (Base_Object.set_attrib (Sample.entity 5) "xsi:type" "host_object").
Proof.
  apply (eq_implies_same_hash Sample.hash (Sample.entity 5)
           (Base_Object.set_attrib (Sample.entity 5) "xsi:type" "host_object")).
  reflexivity.
Defined.

(** X10: objects sharing an [id] but differing in [name] land in the same
    hash bucket and still compare unequal. *)
Theorem same_id_collides_but_differs (hash : pyval → Z) (a b : Base_Object.t) :
  Base_Object.id a = Base_Object.id b →
  Base_Object.name a ≠ Base_Object.name b →
  Base_Object.__hash__ hash a = Base_Object.__hash__ hash b
  ∧ Network_Object.__hash__ hash a = Network_Object.__hash__ hash b
  ∧ Base_Object.__eq__ a b = false.
Proof.
  intros Hid Hname.
  unfold Base_Object.__hash__, Network_Object.__hash__. rewrite Hid.
  split; [reflexivity|]. split; [reflexivity|].
  destruct (Base_Object.__eq__ a b) eqn:E; [|reflexivity].
  apply key_eq_spec in E. unfold Base_Object._key in E.
  exfalso. apply Hname. congruence.
Qed.

Lemma same_id_collides_but_differs_witness :
  Base_Object.__hash__ Sample.hash (Sample.entity 5)
  = Base_Object.__hash__ Sample.hash (Sample_Service.renamed_entity 5)
  ∧ Base_Object.__eq__ (Sample.entity 5) (Sample_Service.renamed_entity 5) = false.
Proof.
  pose proof (same_id_collides_but_differs Sample.hash (Sample.entity 5)
                (Sample_Service.renamed_entity 5) eq_refl) as H.
  assert (Hname : Base_Object.name (Sample.entity 5)
                  ≠ Base_Object.name (Sample_Service.renamed_entity 5))
    by (simpl; discriminate).
  destruct (H Hname) as [Hh [_ He]]. split; [exact Hh | exact He].
Defined.

(** ** Links, continued *)

(** X12: a [URL_Link] is a [link] element with exactly two attributes, the
    namespace declaration and the [href]; were the two names to coincide,
    the [href] written last is the one kept. *)
Theorem URL_Link_attributes {tags : xml_tags} (url k : string) :
  XML_Object_Base._xml_tag (URL_Link.__init__ url) = Elements_LINK
  ∧ XML_Object_Base.get_attrib (URL_Link.__init__ url) k
    = if decide (k = Attributes_HREF) then Some url
      else if decide (k = NAMESPACE_FIELD_ATTRIB_CONTENT)
           then Some XSI_NAMESPACE_URL
           else None.
Proof.
  split; [reflexivity|].
  unfold URL_Link.__init__, XML_Object_Base.get_attrib,
    XML_Object_Base.set_attrib, XML_Object_Base.__init__; simpl.
  rewrite !lookup_insert, lookup_empty.
  repeat case_decide; congruence.
Qed.

(** X13: [URL_Link.from_xml_node] hands the node back untouched, and its
    outcome depends on nothing but the node's [href]: tag, text, children
    and the other attributes play no part. *)
Theorem URL_Link_from_xml_node_reads_href_only {tags : xml_tags}
    (node1 node2 : Element) :
  leaves_node URL_Link.from_xml_node node1
  ∧ (attrib node1 !! Attributes_HREF = attrib node2 !! Attributes_HREF →
     fst (URL_Link.from_xml_node node1) = fst (URL_Link.from_xml_node node2)).
Proof.
  unfold leaves_node, URL_Link.from_xml_node, bind, attrib_getitem, ret.
  split.
  - destruct (attrib node1 !! Attributes_HREF); reflexivity.
  - intros H. rewrite H.
    destruct (attrib node2 !! Attributes_HREF); reflexivity.
Qed.

Lemma URL_Link_from_xml_node_reads_href_only_witness :
  fst (URL_Link.from_xml_node (tags := Sample.tags) Sample.link_node)
  = fst (URL_Link.from_xml_node (tags := Sample.tags)
           (mkElement "a" {[ "href" := "https://api/objects/5"; "rel" := "self" ]}
              (Some "five") [Sample.leaf "id" "5"])).
Proof.
  apply (proj2 (URL_Link_from_xml_node_reads_href_only (tags := Sample.tags)
                  Sample.link_node _)).
  reflexivity.
Defined.

(** X14: a link target built around the link parsed from a node answers
    [get_reference_link()] with that node's [href]. *)
Theorem get_reference_link_of_parsed_link {tags : xml_tags}
    (xml_node : Element) (u xml_tag : string)
    (connection_id display_name name : pyval) :
  attrib xml_node !! Attributes_HREF = Some u →
  ∃ link,
    fst (URL_Link.from_xml_node xml_node) = Return link
    ∧ Base_Link_Target.get_reference_link
        (Base_Link_Target.__init__ xml_tag connection_id display_name name link)
      = Some u.
Proof.
  intros H. exists (URL_Link.__init__ u). split.
  - unfold URL_Link.from_xml_node, bind, attrib_getitem, ret. rewrite H.
    reflexivity.
  - unfold Base_Link_Target.get_reference_link, Base_Link_Target.__init__,
      URL_Link.__init__, XML_Object_Base.get_attrib; simpl.
    apply lookup_insert_eq.
Qed.

Lemma get_reference_link_of_parsed_link_witness :
  ∃ link,
    fst (URL_Link.from_xml_node (tags := Sample.tags) Sample.link_node)
    = Return link
    ∧ Base_Link_Target.get_reference_link (tags := Sample.tags)
        (Base_Link_Target.__init__ "connection" (PyInt 5) (PyStr "srv1")
           (PyStr "srv1") link)
      = Some "https://api/objects/5".
Proof.
  apply (get_reference_link_of_parsed_link (tags := Sample.tags)
           Sample.link_node "https://api/objects/5").
  reflexivity.
Defined.

(** ** Constructors *)

(** X15: what [Network_Object.__init__] and [Service_Object.__init__]
    leave in the object: the XML tag, the six identity fields in the slots
    of their names, and exactly two attributes, the namespace declaration
    and the XSI type; were the two names to coincide, the XSI type written
    last is the one kept. *)
Theorem family_init_state {tags : xml_tags} (xml_tag attr_type k : string)
    (display_name is_global object_id name object_type application_id : pyval) :
  let n := Network_Object.__init__ xml_tag display_name is_global object_id
             name object_type attr_type application_id in
  let s := Service_Object.__init__ xml_tag display_name is_global object_id
             name object_type attr_type application_id in
  n = s
  ∧ Base_Object._key n
    = (object_id, name, object_type, display_name, is_global, application_id)
  ∧ XML_Object_Base._xml_tag (Base_Object.xml n) = xml_tag
  ∧ Base_Object.get_attrib n k
    = if decide (k = Attributes_XSI_TYPE) then Some attr_type
      else if decide (k = NAMESPACE_FIELD_ATTRIB_CONTENT)
           then Some XSI_NAMESPACE_URL
           else None.
Proof.
  simpl. split; [reflexivity|]. split; [reflexivity|]. split; [reflexivity|].
  unfold Network_Object.__init__, Base_Object.__init__, Base_Object.get_attrib,
    Base_Object.set_attrib, XML_Object_Base.get_attrib,
    XML_Object_Base.set_attrib, XML_Object_Base.__init__; simpl.
  rewrite !lookup_insert, lookup_empty.
  repeat case_decide; congruence.
Qed.

(** ** Base_Service and is_global *)

(** X16: when the seven reads succeed, [Base_Service.from_xml_node]
    returns a [service] element whose fields hold the values read under
    the tags of the same names ([id] from [ID], [name] from [NAME],
    [type] from [TYPE], [display_name] from [DISPLAY_NAME], [global_] from
    [GLOBAL], [application_id] from [APPLICATION_ID], [uid] from [UID]). *)
Theorem Base_Service_from_xml_node_fields
    {tags : xml_tags} {elements : xml_elements}
    (get_xml_text_value get_xml_int_value : string → M pyval)
    (xml_node : Element)
    (display_name is_global service_id name service_type uid application_id : pyval) :
  get_xml_text_value Elements_DISPLAY_NAME xml_node = (Return display_name, xml_node) →
  get_xml_text_value Elements_GLOBAL xml_node = (Return is_global, xml_node) →
  get_xml_int_value Elements_ID xml_node = (Return service_id, xml_node) →
  get_xml_text_value Elements_NAME xml_node = (Return name, xml_node) →
  get_xml_text_value Elements_TYPE xml_node = (Return service_type, xml_node) →
  get_xml_text_value Elements_UID xml_node = (Return uid, xml_node) →
  get_xml_int_value Elements_APPLICATION_ID xml_node
  = (Return application_id, xml_node) →
  ∃ obj,
    Base_Service.from_xml_node get_xml_text_value get_xml_int_value xml_node
    = (Return obj, xml_node)
    ∧ Base_Service.uid obj = uid
    ∧ Base_Service._key obj
      = (service_id, name, service_type, display_name, is_global, application_id)
    ∧ XML_Object_Base._xml_tag (Base_Object.xml (Base_Service.base obj))
      = Elements_SERVICE
    ∧ Base_Object.get_attrib (Base_Service.base obj) NAMESPACE_FIELD_ATTRIB_CONTENT
      = Some XSI_NAMESPACE_URL.
Proof.
  intros H1 H2 H3 H4 H5 H6 H7. eexists. split.
  - unfold Base_Service.from_xml_node, bind, ret.
    rewrite H1, H2, H3, H4, H5, H6, H7. reflexivity.
  - split; [reflexivity|]. split; [reflexivity|]. split; [reflexivity|].
    apply lookup_insert_eq.
Qed.

Lemma Base_Service_from_xml_node_fields_witness :
  ∃ obj,
    Base_Service.from_xml_node (tags := Sample.tags)
      (elements := Sample_Service.elements)
      Sample_Service.get_xml_text_value Sample_Service.get_xml_int_value
      (Sample_Service.service_node "22")
    = (Return obj, Sample_Service.service_node "22")
    ∧ Base_Service.uid obj = PyStr "{abc}"
    ∧ Base_Service._key obj
      = (PyInt 22, PyStr "ssh", PyStr "tcp_service", PyStr "SSH", PyStr "true",
         PyNone).
Proof.
  destruct (Base_Service_from_xml_node_fields (tags := Sample.tags)
              (elements := Sample_Service.elements)
              Sample_Service.get_xml_text_value Sample_Service.get_xml_int_value
              (Sample_Service.service_node "22")
              (PyStr "SSH") (PyStr "true") (PyInt 22) (PyStr "ssh")
              (PyStr "tcp_service") (PyStr "{abc}") PyNone
              eq_refl eq_refl eq_refl eq_refl eq_refl eq_refl eq_refl)
    as [obj [Hobj [Huid [Hkey _]]]].
  exists obj. split; [exact Hobj|]. split; [exact Huid | exact Hkey].
Defined.

(** X17: the reads happen in the order of the source, and the first one
    that raises ends [Base_Service.from_xml_node] with its exception: a
    failing [display_name] read at once, a failing [id] read after the two
    reads before it. No object is built. *)
Theorem Base_Service_from_xml_node_first_error
    {tags : xml_tags} {elements : xml_elements}
    (get_xml_text_value get_xml_int_value : string → M pyval)
    (xml_node node' : Element) (display_name is_global : pyval) (e : exn) :
  (get_xml_text_value Elements_DISPLAY_NAME xml_node = (Raise e, node') →
   Base_Service.from_xml_node get_xml_text_value get_xml_int_value xml_node
   = (Raise e, node'))
  ∧ (get_xml_text_value Elements_DISPLAY_NAME xml_node
     = (Return display_name, xml_node) →
     get_xml_text_value Elements_GLOBAL xml_node = (Return is_global, xml_node) →
     get_xml_int_value Elements_ID xml_node = (Raise e, node') →
     Base_Service.from_xml_node get_xml_text_value get_xml_int_value xml_node
     = (Raise e, node')).
Proof.
  unfold Base_Service.from_xml_node, bind, ret. split.
  - intros H1. rewrite H1. reflexivity.
  - intros H1 H2 H3. rewrite H1, H2, H3. reflexivity.
Qed.

Lemma Base_Service_from_xml_node_first_error_witness :
  Base_Service.from_xml_node (tags := Sample.tags)
    (elements := Sample_Service.elements)
    Sample_Service.get_xml_text_value Sample_Service.get_xml_int_value
    (Sample_Service.service_node "twenty-two")
  = (Raise (ValueError "invalid literal for int()"),
     Sample_Service.service_node "twenty-two").
Proof.
  apply (proj2 (Base_Service_from_xml_node_first_error (tags := Sample.tags)
                  (elements := Sample_Service.elements)
                  Sample_Service.get_xml_text_value
                  Sample_Service.get_xml_int_value
                  (Sample_Service.service_node "twenty-two")
                  (Sample_Service.service_node "twenty-two")
                  (PyStr "SSH") (PyStr "true")
                  (ValueError "invalid literal for int()")));
    reflexivity.
Defined.

(** X18: [uid] takes no part in the key or the hash of a
    [Base_Service]: two services that differ in [uid] alone have the same
    [_key()] and the same hash, and that key is the six values the
    constructor was given, [uid] not among them. *)
Theorem Base_Service_key_ignores_uid {tags : xml_tags} {elements : xml_elements}
    (hash : pyval → Z)
    (display_name is_global service_id name service_type uid uid'
       application_id : pyval) :
  Base_Service._key
    (Base_Service.__init__ display_name is_global service_id name service_type
       uid application_id)
  = (service_id, name, service_type, display_name, is_global, application_id)
  ∧ Base_Service._key
      (Base_Service.__init__ display_name is_global service_id name service_type
         uid application_id)
    = Base_Service._key
        (Base_Service.__init__ display_name is_global service_id name
           service_type uid' application_id)
  ∧ Base_Service.__hash__ hash
      (Base_Service.__init__ display_name is_global service_id name service_type
         uid application_id)
    = Base_Service.__hash__ hash
        (Base_Service.__init__ display_name is_global service_id name service_type
           uid' application_id).
Proof. repeat split. Qed.

(** X19: objects that compare equal give the same [is_global()], be it a
    value or the exception of [str_to_bool]. *)
Theorem eq_implies_same_is_global (str_to_bool : pyval → result bool)
    (a b : Base_Object.t) :
  Base_Object.__eq__ a b = true →
  Base_Object.is_global str_to_bool a = Base_Object.is_global str_to_bool b.
Proof.
  intros H. apply key_eq_spec in H. unfold Base_Object._key in H.
  assert (Hg : Base_Object.global_ a = Base_Object.global_ b) by congruence.
  unfold Base_Object.is_global. rewrite Hg. reflexivity.
Qed.

Lemma eq_implies_same_is_global_witness :
  Base_Object.is_global Sample_Service.str_to_bool (Sample.entity 5)
  = Base_Object.is_global Sample_Service.str_to_bool
      (Base_Object.set_attrib (Sample.entity 5) "xsi:type" "host_object").
Proof.
  apply (eq_implies_same_is_global Sample_Service.str_to_bool (Sample.entity 5)
           (Base_Object.set_attrib (Sample.entity 5) "xsi:type" "host_object")).
  reflexivity.
Defined.
